(** * Data-access helpers of the fly connectome tutorial ([src/python/utils.py])

    A shallow embedding of [construct_path], [read_feather_gcs],
    [read_parquet_gcs], [read_swc_from_gcs] and [batch_read_swc_from_gcs].
    Strings are Rocq [string]s; the local file system and the remote
    object store are finite maps from path strings; Python exceptions are
    an error result threaded through a small state-and-error monad that
    also records every call made on the remote client. *)

From Stdlib Require Import String Ascii ZArith NArith List Lia DecimalString.
From stdpp Require Import base gmap strings list.

Local Open Scope string_scope.

(* ------------------------------------------------------------------ *)
(** ** Python string methods *)

Module PyStr.

(** [s.startswith(p)] *)
Definition startswith (p s : string) : bool := String.prefix p s.

(** [s.replace(old, new)] for a non-empty [old]: left to right,
    non-overlapping occurrences.  Every step consumes at least one
    character, so [String.length s + 1] steps are enough. *)
Fixpoint replace_fuel (fuel : nat) (old new s : string) : string :=
  match fuel with
  | O => s
  | S fuel' =>
      match s with
      | EmptyString => EmptyString
      | String c rest =>
          if String.prefix old s
          then String.append new
                 (replace_fuel fuel' old new
                    (substring (String.length old)
                       (String.length s - String.length old) s))
          else String c (replace_fuel fuel' old new rest)
      end
  end.

(** [s.replace("", new)] puts [new] before every character and at the end. *)
Fixpoint replace_empty (new s : string) : string :=
  match s with
  | EmptyString => new
  | String c rest => String.append new (String c (replace_empty new rest))
  end.

Definition replace (old new s : string) : string :=
  match old with
  | EmptyString => replace_empty new s
  | _ => replace_fuel (S (String.length s)) old new s
  end.

(** [s.split(sep)] for a one-character separator. *)
Fixpoint split_char (sep : ascii) (s : string) : list string :=
  match s with
  | EmptyString => [EmptyString]
  | String c rest =>
      match split_char sep rest with
      | [] => [String c EmptyString]
      | w :: ws =>
          if Ascii.eqb c sep then EmptyString :: w :: ws
          else String c w :: ws
      end
  end.

(** [sub in s] *)
Fixpoint contains (sub s : string) : bool :=
  String.prefix sub s ||
  match s with
  | EmptyString => false
  | String _ rest => contains sub rest
  end.

(** [sep.join(xs)] *)
Fixpoint join (sep : string) (xs : list string) : string :=
  match xs with
  | [] => EmptyString
  | [x] => x
  | x :: xs' => String.append x (String.append sep (join sep xs'))
  end.

(** [s.lower()] on ASCII text: [A]..[Z] become [a]..[z]. *)
Definition lower_char (c : ascii) : ascii :=
  let n := nat_of_ascii c in
  if Nat.leb 65 n && Nat.leb n 90 then ascii_of_nat (n + 32) else c.

Fixpoint lower (s : string) : string :=
  match s with
  | EmptyString => EmptyString
  | String c rest => String (lower_char c) (lower rest)
  end.

End PyStr.

Infix "+:+" := String.append (at level 60, right associativity).

(* ------------------------------------------------------------------ *)
(** ** Exceptions raised by the modelled code *)

Inductive exn :=
  | ValueError (msg : string)
  | FileNotFoundError (path : string)
  | IsADirectoryError (path : string)
  | FileExistsError (path : string)
  | AttributeError (msg : string)
  | ArrowInvalid
  | SwcParseError.

Inductive result (A : Type) :=
  | Ok (a : A)
  | Err (e : exn).
Arguments Ok {A} a.
Arguments Err {A} e.

(* ------------------------------------------------------------------ *)
(** ** [construct_path] *)

Module Paths.

(** The [extensions] dict, in insertion order. *)
Definition extensions : list (string * string) :=
  [("meta", ".feather");
   ("edgelist", ".feather");
   ("edgelist_simple", ".feather");
   ("synapses", ".parquet");
   ("skeletons", "")].

Fixpoint dict_get (k : string) (d : list (string * string)) : option string :=
  match d with
  | [] => None
  | (k', v) :: d' => if String.eqb k k' then Some v else dict_get k d'
  end.

(** [dataset.split("_")[0]] *)
Definition dataset_name_of (dataset : string) : string :=
  match PyStr.split_char "_"%char dataset with
  | w :: _ => w
  | [] => EmptyString
  end.

Definition construct_path (data_root dataset file_type : string)
    (space_suffix : option string) : result string :=
  let dataset_name := dataset_name_of dataset in
  match dict_get file_type extensions with
  | None =>
      Err (ValueError ("Unknown file_type: " +:+ file_type +:+ ". Choose: "
                       +:+ PyStr.join ", " (map fst extensions)))
  | Some extension =>
      let filename :=
        if String.eqb file_type "skeletons" then
          let space_suffix :=
            match space_suffix with
            | None => dataset_name +:+ "_space"
            | Some s => s
            end in
          if String.eqb dataset_name "banc"
          then dataset_name +:+ "_" +:+ space_suffix +:+ "_l2_swc" +:+ extension
          else dataset_name +:+ "_" +:+ space_suffix +:+ "_swc" +:+ extension
        else if String.eqb file_type "edgelist_simple" then
          dataset +:+ "_simple_edgelist" +:+ extension
        else dataset +:+ "_" +:+ file_type +:+ extension in
      Ok (data_root +:+ "/" +:+ dataset_name +:+ "/" +:+ filename)
  end.

(** The file-kind table of the spec (section 6), used to state what
    [construct_path] computes. *)
Inductive file_kind := Meta | Edgelist | EdgelistSimple | Synapses | Skeletons.

Definition file_kind_name (k : file_kind) : string :=
  match k with
  | Meta => "meta"
  | Edgelist => "edgelist"
  | EdgelistSimple => "edgelist_simple"
  | Synapses => "synapses"
  | Skeletons => "skeletons"
  end.

Definition valid_kinds : list string :=
  map file_kind_name [Meta; Edgelist; EdgelistSimple; Synapses; Skeletons].

(** The dataset family of the spec: the characters before the first [_]. *)
Fixpoint family_spec (dataset : string) : string :=
  match dataset with
  | EmptyString => EmptyString
  | String c rest => if Ascii.eqb c "_"%char then EmptyString
                     else String c (family_spec rest)
  end.

(** The filename column of the spec's table, with its extension. *)
Definition spec_filename (dataset family : string) (k : file_kind)
    (space_suffix : option string) : string :=
  match k with
  | Meta => dataset +:+ "_meta" +:+ ".feather"
  | Edgelist => dataset +:+ "_edgelist" +:+ ".feather"
  | EdgelistSimple => dataset +:+ "_simple_edgelist" +:+ ".feather"
  | Synapses => dataset +:+ "_synapses" +:+ ".parquet"
  | Skeletons =>
      let sp := match space_suffix with
                | Some s => s
                | None => family +:+ "_space"
                end in
      family +:+ "_" +:+ sp +:+ (if String.eqb family "banc" then "_l2" else "")
        +:+ "_swc"
  end.

(** [{root}/{family}/{filename}] *)
Definition spec_resolve (root dataset : string) (k : file_kind)
    (space_suffix : option string) : string :=
  root +:+ "/" +:+ family_spec dataset +:+ "/"
    +:+ spec_filename dataset (family_spec dataset) k space_suffix.

End Paths.

(* ------------------------------------------------------------------ *)
(** ** A state-and-error monad: a Python statement sequence that may raise.
    The state survives a raise, as side effects done before an exception do. *)

Definition St (S A : Type) : Type := S -> result A * S.

Definition st_ret {S A} (a : A) : St S A := fun s => (Ok a, s).

Definition st_bind {S A B} (m : St S A) (k : A -> St S B) : St S B :=
  fun s => match m s with
           | (Ok a, s') => k a s'
           | (Err e, s') => (Err e, s')
           end.

Definition raise {S A} (e : exn) : St S A := fun s => (Err e, s).

Definition of_result {S A} (r : result A) : St S A := fun s => (r, s).

(** [try: m  except: <nothing>] returning [None] when [m] raised. *)
Definition catch {S A} (m : St S A) : St S (option A) :=
  fun s => match m s with
           | (Ok a, s') => (Ok (Some a), s')
           | (Err _, s') => (Ok None, s')
           end.

Notation "'let*' x := m 'in' k" := (st_bind m (fun x => k))
  (at level 200, x name, m at level 100, k at level 200).
Notation "m ;; k" := (st_bind m (fun _ => k))
  (at level 100, right associativity).

(** [f.read(n)] on a byte stream: at most [n] bytes from the front. *)
Fixpoint take_n {B} (n : N) (l : list B) : list B :=
  match l with
  | [] => []
  | x :: r => if (n =? 0)%N then [] else x :: take_n (n - 1) r
  end.

Fixpoint drop_n {B} (n : N) (l : list B) : list B :=
  match l with
  | [] => []
  | x :: r => if (n =? 0)%N then l else drop_n (n - 1) r
  end.

(** [chunk_size = 1024 * 1024  # 1MB chunks] *)
Definition chunk_size : N := 1024 * 1024.

(** The download loop
<<
    chunks = []
    while True:
        chunk = f.read(chunk_size)
        if not chunk:
            break
        chunks.append(chunk)
>>
    Each iteration that does not break consumes at least one byte, so
    [length s + 1] iterations reach the break. *)
Fixpoint read_loop {B} (fuel : nat) (n : N) (s : list B) : list (list B) :=
  match fuel with
  | O => []
  | S fuel' =>
      match take_n n s with
      | [] => []
      | chunk => chunk :: read_loop fuel' n (drop_n n s)
      end
  end.

Definition read_chunks {B} (n : N) (s : list B) : list (list B) :=
  read_loop (S (length s)) n s.

(** [content = b''.join(chunks)] *)
Definition download_content {B} (s : list B) : list B :=
  concat (read_chunks chunk_size s).

(** [os.path.join(a, b)] (posixpath). *)
Definition os_path_join (a b : string) : string :=
  if String.prefix "/" b then b
  else match a with
       | EmptyString => b
       | _ => if String.eqb (substring (String.length a - 1) 1 a) "/"
              then a +:+ b else a +:+ "/" +:+ b
       end.

Inductive remote_op :=
  | Info (p : string)
  | Open (p : string).

(** A concrete columnar format for evaluating the readers on examples:
    the contents of a file are the list of its columns, each a name and
    integer cells; a SWC file parses when it is non-empty. *)
Module Toy.
Definition col : Type := list Z.
Definition byte : Type := (string * list Z)%type.
Definition parse (b : list byte) : option (list (string * col)) := Some b.
Definition ser (t : list (string * col)) : list byte := t.
Definition neuron : Type := nat.
Definition parse_swc (b : list byte) : option neuron :=
  match b with [] => None | _ => Some (length b) end.
(** pandas takes a string containing ["://"] for a URL; no URL can be
    fetched, and a local directory holds no readable dataset. *)
Definition is_url (p : string) : bool := PyStr.contains "://" p.
Definition read_feather_url (p : string) : result (list (string * col)) :=
  Err (FileNotFoundError p).
Definition read_parquet_url (p : string) (columns : option (list string))
    : result (list (string * col)) :=
  Err (FileNotFoundError p).
Definition read_parquet_dataset {entry : Type} (m : gmap string entry) (p : string)
    (columns : option (list string)) : result (list (string * col)) :=
  Err ArrowInvalid.
End Toy.

(* ------------------------------------------------------------------ *)
(** ** [split_neurons_by_compartment] and [plot3d_split] *)

(** A cell of a node table's label column: a string, an integer, or a
    missing value ([NaN] / [None]). *)
Inductive label :=
  | LStr (s : string)
  | LInt (z : Z)
  | LNaN.

(** [pd.isna(x)] *)
Definition isna (l : label) : bool :=
  match l with LNaN => true | _ => false end.

(** [str(x)] *)
Definition py_str (l : label) : string :=
  match l with
  | LStr s => s
  | LInt z => NilZero.string_of_int (Z.to_int z)
  | LNaN => "nan"
  end.

(** Element-wise [==] of a column with a value: [NaN] equals nothing. *)
Definition label_eqb (a b : label) : bool :=
  match a, b with
  | LStr x, LStr y => String.eqb x y
  | LInt x, LInt y => Z.eqb x y
  | _, _ => false
  end.

(** The grouping of [Series.unique()]: like [==], but all [NaN]s are one value. *)
Definition unique_eqb (a b : label) : bool :=
  match a, b with
  | LNaN, LNaN => true
  | _, _ => label_eqb a b
  end.

(** [Series.unique()]: the distinct values in order of first appearance. *)
Fixpoint unique_from (seen : list label) (xs : list label) : list label :=
  match xs with
  | [] => []
  | x :: rest =>
      if existsb (unique_eqb x) seen then unique_from seen rest
      else x :: unique_from (x :: seen) rest
  end.

Definition unique (xs : list label) : list label := unique_from [] xs.

Inductive compartment := Axon | Dendrite | Linker | Neurite.

(** The [if]/[elif] chain on [comp_lower]; [None] when no branch is taken. *)
Definition classify (comp_lower : string) : option compartment :=
  if PyStr.contains "axon" comp_lower
     && negb (PyStr.contains "dendrite" comp_lower)
     && negb (PyStr.contains "neurite" comp_lower) then Some Axon
  else if PyStr.contains "dendrite" comp_lower
          && negb (PyStr.contains "primary" comp_lower) then Some Dendrite
  else if PyStr.contains "primary_dendrite" comp_lower
          || PyStr.contains "linker" comp_lower then Some Linker
  else if PyStr.contains "neurite" comp_lower
          || PyStr.contains "tract" comp_lower then Some Neurite
  else None.

(** A node of [neuron.nodes]: its [node_id] and its cell in each column. *)
Record node := {
  node_id : Z;
  node_value : string -> label
}.

(** A [navis.TreeNeuron], through its node table. *)
Record tree_neuron := {
  node_columns : list string;
  nodes : list node
}.

(** The four lists [axons], [dendrites], [linkers], [neurites]. *)
Record parts := {
  axons : list tree_neuron;
  dendrites : list tree_neuron;
  linkers : list tree_neuron;
  neurites : list tree_neuron
}.

Definition empty_parts : parts :=
  {| axons := []; dendrites := []; linkers := []; neurites := [] |}.

(** The [.append(subset)] of the branch taken, if any. *)
Definition add_part (p : parts) (k : option compartment) (s : tree_neuron) : parts :=
  match k with
  | Some Axon => {| axons := (axons p ++ [s])%list; dendrites := dendrites p;
                    linkers := linkers p; neurites := neurites p |}
  | Some Dendrite => {| axons := axons p; dendrites := (dendrites p ++ [s])%list;
                        linkers := linkers p; neurites := neurites p |}
  | Some Linker => {| axons := axons p; dendrites := dendrites p;
                      linkers := (linkers p ++ [s])%list; neurites := neurites p |}
  | Some Neurite => {| axons := axons p; dendrites := dendrites p;
                       linkers := linkers p; neurites := (neurites p ++ [s])%list |}
  | None => p
  end.

(** [col in neuron.nodes.columns] *)
Definition has_column (n : tree_neuron) (col : string) : bool :=
  existsb (String.eqb col) (node_columns n).

(** [neuron.nodes[col]] *)
Definition column (n : tree_neuron) (col : string) : list label :=
  map (fun nd => node_value nd col) (nodes n).

(** The plot objects and the arguments of the [navis.plot3d] call. *)
Record plot3d_call {volume : Type} := {
  call_objects : list (volume + tree_neuron);
  call_color : option (list string);
  call_backend : string;
  call_width : Z;
  call_height : Z;
  call_title : string
}.
Arguments plot3d_call : clear implicits.

(** The [volumes] argument: [None], one volume, or a list of volumes. *)
Inductive volumes_arg {volume : Type} :=
  | NoVolumes
  | OneVolume (v : volume)
  | VolumeList (vs : list volume).
Arguments volumes_arg : clear implicits.

Section Neurons.

(** [navis.subset_neuron(neuron, node_ids)] *)
Variable subset_neuron : tree_neuron -> list Z -> tree_neuron.

(** [navis.subset_neuron(neuron,
       neuron.nodes[neuron.nodes[label_col] == compartment].node_id.values)] *)
Definition subset_for (n : tree_neuron) (label_col : string) (comp : label)
    : tree_neuron :=
  subset_neuron n
    (map node_id (List.filter (fun nd => label_eqb (node_value nd label_col) comp)
                    (nodes n))).

(** [for compartment in neuron.nodes[label_col].unique(): ...] *)
Fixpoint split_labels (n : tree_neuron) (label_col : string) (comps : list label)
    (p : parts) : parts :=
  match comps with
  | [] => p
  | comp :: rest =>
      if isna comp then split_labels n label_col rest p
      else
        let comp_lower := PyStr.lower (py_str comp) in
        let subset := subset_for n label_col comp in
        split_labels n label_col rest (add_part p (classify comp_lower) subset)
  end.

(** [for neuron in neurons: ...] *)
Fixpoint split_loop (neurons : list tree_neuron) (p : parts) : parts :=
  match neurons with
  | [] => p
  | n :: rest =>
      split_loop rest
        (if has_column n "Label" || has_column n "label" || has_column n "compartment"
         then
           let label_col := if has_column n "Label" then "Label"
                            else if has_column n "label" then "label"
                            else "compartment" in
           split_labels n label_col (unique (column n label_col)) p
         else p)
  end.

Definition split_neurons_by_compartment (neurons : list tree_neuron) : parts :=
  split_loop neurons empty_parts.

Variable volume : Type.

(** [if len(compartments[k]) > 0: plot_objects.extend(...);
    plot_colors.extend([color] * len(...))] *)
Definition extend_part (acc : list (volume + tree_neuron) * list string)
    (xs : list tree_neuron) (color : string)
    : list (volume + tree_neuron) * list string :=
  if Nat.ltb 0 (length xs)
  then ((fst acc ++ map inr xs)%list, (snd acc ++ repeat color (length xs))%list)
  else acc.

(** [navis.plot3d(...)] on the arguments of a call: the figure, or
    [None] (as when plotly displays the figure inline). *)
Variable fig3d : Type.
Variable navis_plot3d : plot3d_call volume -> option fig3d.

(** [plot3d_split]; [**kwargs] are passed through unchanged and not
    modelled. *)
Definition plot3d_split (neurons : list tree_neuron) (volumes : volumes_arg volume)
    (backend : string) (width height : Z) (title : option string)
    : option fig3d :=
  let compartments := split_neurons_by_compartment neurons in
  let vol_objs := match volumes with
                  | NoVolumes => []
                  | OneVolume v => [inl v]
                  | VolumeList vs => map inl vs
                  end in
  let acc := (vol_objs, []) in
  let acc := extend_part acc (dendrites compartments) "cyan" in
  let acc := extend_part acc (linkers compartments) "green" in
  let acc := extend_part acc (axons compartments) "orange" in
  let acc := extend_part acc (neurites compartments) "purple" in
  let '(plot_objects, plot_colors) := acc in
  if Nat.ltb 0 (length plot_objects) then
    navis_plot3d
         {| call_objects := plot_objects;
            call_color := match plot_colors with [] => None | _ => Some plot_colors end;
            call_backend := backend;
            call_width := width;
            call_height := 800;
            call_title := match title with
                          | Some t => if String.eqb t "" then "Neurons - Colored by Compartment"
                                      else t
                          | None => "Neurons - Colored by Compartment"
                          end |}
  else None.

End Neurons.

Section Fetch.

(** The byte type of file contents, the column type of a table and the
    neuron type built by the SWC reader are those of the libraries. *)
Variables (byte col neuron : Type).

(** A table: named columns, in order. *)
Definition table : Type := list (string * col).

(** The file-format libraries (pyarrow / pandas, navis). *)
Variables (parse_feather parse_parquet : list byte -> option table).
Variables (ser_feather ser_parquet : table -> list byte).
Variable parse_swc : list byte -> option neuron.

Inductive entry :=
  | File (contents : list byte)
  | Dir.

(** A [gcsfs.GCSFileSystem]: the objects of the store and the answer of
    [info(path)]: [None] when it raises, [Some None] for a dict without
    ['size'], [Some (Some n)] for size [n]. *)
Record client := {
  objects : gmap string (list byte);
  info_resp : string -> option (option Z)
}.

Record world := {
  fs : gmap string entry;
  remote_log : list remote_op
}.

Definition M := St world.

Definition set_fs (m : gmap string entry) (w : world) : world :=
  {| fs := m; remote_log := remote_log w |}.

Definition log_op (o : remote_op) (w : world) : world :=
  {| fs := fs w; remote_log := (remote_log w ++ [o])%list |}.

(** [os.path.exists(p)]: true for files and directories. *)
Definition os_path_exists (p : string) : M bool :=
  fun w => (Ok (negb (String.eqb p "") && bool_decide (is_Some (fs w !! p))), w).

(** Reading a local file's bytes. *)
Definition read_local (p : string) : M (list byte) :=
  fun w => match fs w !! p with
           | Some (File b) => (Ok b, w)
           | Some Dir => (Err (IsADirectoryError p), w)
           | None => (Err (FileNotFoundError p), w)
           end.

(** Writing a local file. *)
Definition write_local (p : string) (b : list byte) : M unit :=
  fun w => match fs w !! p with
           | Some Dir => (Err (IsADirectoryError p), w)
           | _ => (Ok tt, set_fs (<[p := File b]> (fs w)) w)
           end.

(** [os.makedirs(d, exist_ok=True)] on a flat name space: [d] is one
    entry.  The parents the real call also creates, the spelling of [d]
    (a trailing ["/"]) and the errors of a parent that is a regular file
    are not modelled; the model raises exactly where the real call raises
    for the empty name and for an existing regular file [d]. *)
Definition makedirs (d : string) : M unit :=
  fun w => if String.eqb d "" then (Err (FileNotFoundError d), w)
           else match fs w !! d with
                | Some Dir => (Ok tt, w)
                | Some (File _) => (Err (FileExistsError d), w)
                | None => (Ok tt, set_fs (<[d := Dir]> (fs w)) w)
                end.

(** [gcs_fs.info(p)]. *)
Definition remote_info (c : client) (p : string) : M (option Z) :=
  fun w => let w' := log_op (Info p) w in
           match info_resp c p with
           | Some r => (Ok r, w')
           | None => (Err (FileNotFoundError p), w')
           end.

(** [gcs_fs.open(p, 'rb')]: the stream of the object's bytes. *)
Definition remote_open (c : client) (p : string) : M (list byte) :=
  fun w => let w' := log_op (Open p) w in
           match objects c !! p with
           | Some b => (Ok b, w')
           | None => (Err (FileNotFoundError p), w')
           end.

Fixpoint find_col (c : string) (t : table) : option col :=
  match t with
  | [] => None
  | (c', v) :: t' => if String.eqb c c' then Some v else find_col c t'
  end.

(** The [columns=] argument of pyarrow: the requested columns, in the
    requested order; an unknown name raises. *)
Fixpoint select_columns (cs : list string) (t : table) : option table :=
  match cs with
  | [] => Some []
  | c :: cs' =>
      match find_col c t, select_columns cs' t with
      | Some v, Some r => Some ((c, v) :: r)
      | _, _ => None
      end
  end.

(** [pq.read_table(src, columns=columns).to_pandas()] and
    [pd.read_parquet(path, columns=columns)] on the bytes [b]. *)
Definition read_table (parse : list byte -> option table) (b : list byte)
    (columns : option (list string)) : result table :=
  match parse b with
  | None => Err ArrowInvalid
  | Some t =>
      match columns with
      | None => Ok t
      | Some cs => match select_columns cs t with
                   | Some r => Ok r
                   | None => Err ArrowInvalid
                   end
      end
  end.

(** pandas' path readers.  A string pandas takes for a URL ([is_url] or
    [is_fsspec_url]: [http://...], [s3://...], [file:...]) is fetched by
    pandas itself, through neither the local store nor the client; its
    outcome is [read_feather_url] / [read_parquet_url].  Any other string
    is a local path: a file is parsed, a missing entry raises
    [FileNotFoundError], and a directory is read by [pd.read_parquet] as a
    partitioned dataset ([read_parquet_dataset], pyarrow's dataset reader
    on the store), while [pd.read_feather] opens it as a file and raises
    [IsADirectoryError]. *)
Variable is_url : string -> bool.
Variable read_feather_url : string -> result table.
Variable read_parquet_url : string -> option (list string) -> result table.
Variable read_parquet_dataset :
  gmap string entry -> string -> option (list string) -> result table.

(** A local path read by [pd.read_feather(p)]. *)
Definition pd_read_feather_local (p : string) (m : gmap string entry)
    : result table :=
  match m !! p with
  | Some (File b) => read_table parse_feather b None
  | Some Dir => Err (IsADirectoryError p)
  | None => Err (FileNotFoundError p)
  end.

(** A local path read by [pd.read_parquet(p, columns=columns)]. *)
Definition pd_read_parquet_local (p : string) (columns : option (list string))
    (m : gmap string entry) : result table :=
  match m !! p with
  | Some (File b) => read_table parse_parquet b columns
  | Some Dir => read_parquet_dataset m p columns
  | None => Err (FileNotFoundError p)
  end.

(** [pd.read_feather(p)]. *)
Definition pd_read_feather (p : string) (m : gmap string entry) : result table :=
  if is_url p then read_feather_url p else pd_read_feather_local p m.

(** [pd.read_parquet(p, columns=columns)]. *)
Definition pd_read_parquet (p : string) (columns : option (list string))
    (m : gmap string entry) : result table :=
  if is_url p then read_parquet_url p columns else pd_read_parquet_local p columns m.

(** A reader of the local store: it writes nothing and calls no client. *)
Definition read_store {A} (f : gmap string entry -> result A) : M A :=
  fun w => (f (fs w), w).

(** [cache_filename = path.replace("gs://", "").replace("/", "_")] *)
Definition cache_filename (path : string) : string :=
  PyStr.replace "/" "_" (PyStr.replace "gs://" "" path).

(** The cache key as the spec words it: the remote-location prefix
    ["gs://"] stripped from the front, then every ["/"] replaced by ["_"]. *)
Definition spec_cache_key (path : string) : string :=
  PyStr.replace "/" "_" (substring 5 (String.length path - 5) path).

(** The [try: ... except: file_size = None] block:
    [file_size = file_info.get('size', 0)]. *)
Definition get_file_size (c : client) (gcs_path : string) : M (option Z) :=
  let* r := catch (remote_info c gcs_path) in
  st_ret (match r with
          | None => None
          | Some None => Some 0%Z
          | Some (Some n) => Some n
          end).

(** Python truthiness of [file_size]. *)
Definition truthy (file_size : option Z) : bool :=
  match file_size with
  | Some n => negb (Z.eqb n 0)
  | None => false
  end.

(** The [with gcs_fs.open(gcs_path, 'rb') as f:] block: the chunked,
    progress-reporting read when the size is known, the direct parse of
    the stream otherwise. *)
Definition download_parse (parse : list byte -> option table) (c : client)
    (gcs_path : string) (file_size : option Z)
    (columns : option (list string)) : M table :=
  let* f := remote_open c gcs_path in
  if truthy file_size
  then of_result (read_table parse (download_content f) columns)
  else of_result (read_table parse f columns).

(** On a cache hit the cache path is read as the local entry that
    [os.path.exists] has just found; a cache directory spelled as a URL,
    which pandas would fetch instead, is outside the model. *)
Definition read_feather_gcs (path : string) (gcs_fs : option client)
    (cache_dir : string) (use_cache : bool) : M table :=
  if PyStr.startswith "gs://" path then
    match gcs_fs with
    | None => raise (ValueError "gcs_fs required for GCS paths")
    | Some c =>
        let cache_filename := cache_filename path in
        let cache_path := os_path_join cache_dir cache_filename in
        let* hit := (if use_cache then os_path_exists cache_path
                     else st_ret false) in
        if hit then
          read_store (pd_read_feather_local cache_path)
        else
          let gcs_path := PyStr.replace "gs://" "" path in
          let* file_size := get_file_size c gcs_path in
          let* df := download_parse parse_feather c gcs_path file_size None in
          if use_cache then
            makedirs cache_dir;;
            write_local cache_path (ser_feather df);;
            st_ret df
          else st_ret df
    end
  else
    read_store (pd_read_feather path).

Definition read_parquet_gcs (path : string) (gcs_fs : option client)
    (columns : option (list string)) (cache_dir : string)
    (use_cache : bool) : M table :=
  if PyStr.startswith "gs://" path then
    match gcs_fs with
    | None => raise (ValueError "gcs_fs required for GCS paths")
    | Some c =>
        let cache_filename := cache_filename path in
        let cache_path := os_path_join cache_dir cache_filename in
        let* hit := (if use_cache then os_path_exists cache_path
                     else st_ret false) in
        if hit then
          read_store (pd_read_parquet_local cache_path columns)
        else
          let gcs_path := PyStr.replace "gs://" "" path in
          let* file_size := get_file_size c gcs_path in
          let* df := download_parse parse_parquet c gcs_path file_size columns in
          if use_cache then
            makedirs cache_dir;;
            match columns with
            | Some _ =>
                let* f := remote_open c gcs_path in
                let* full_df := of_result (read_table parse_parquet f None) in
                write_local cache_path (ser_parquet full_df);;
                st_ret df
            | None =>
                write_local cache_path (ser_parquet df);;
                st_ret df
            end
          else st_ret df
    end
  else
    read_store (pd_read_parquet path columns).

(** [read_swc_from_gcs]: [gcs_fs.open] then [navis.read_swc]; a [None]
    client raises on the attribute lookup. *)
Definition read_swc_from_gcs (gcs_fs : option client) (swc_path : string)
    : M neuron :=
  match gcs_fs with
  | None => raise (AttributeError "'NoneType' object has no attribute 'open'")
  | Some c =>
      let* content := remote_open c swc_path in
      match parse_swc content with
      | Some n => st_ret n
      | None => raise SwcParseError
      end
  end.

(** The [for filename in iterator:] loop, [neurons] the accumulator. *)
Fixpoint batch_loop (gcs_fs : option client) (directory : string)
    (neurons : list neuron) (filenames : list string) : M (list neuron) :=
  match filenames with
  | [] => st_ret neurons
  | filename :: rest =>
      let swc_path := directory +:+ "/" +:+ filename in
      let* r := catch (read_swc_from_gcs gcs_fs swc_path) in
      batch_loop gcs_fs directory
        (match r with
         | Some neuron => (neurons ++ [neuron])%list
         | None => neurons
         end) rest
  end.

(** [show_progress] only selects what is printed. *)
Definition batch_read_swc_from_gcs (gcs_fs : option client) (directory : string)
    (filenames : list string) (show_progress : bool) : M (list neuron) :=
  batch_loop gcs_fs directory [] filenames.


(** What the batch loop keeps for one name: the parsed neuron when the
    object exists and parses. *)
Definition swc_item (gcs_fs : option client) (directory name : string)
    : option neuron :=
  match gcs_fs with
  | Some c => match objects c !! (directory +:+ "/" +:+ name) with
              | Some b => parse_swc b
              | None => None
              end
  | None => None
  end.

Definition item_failed (gcs_fs : option client) (directory name : string) : bool :=
  match swc_item gcs_fs directory name with
  | Some _ => false
  | None => true
  end.

Fixpoint parsed_items (gcs_fs : option client) (directory : string)
    (names : list string) : list neuron :=
  match names with
  | [] => []
  | name :: rest =>
      match swc_item gcs_fs directory name with
      | Some n => n :: parsed_items gcs_fs directory rest
      | None => parsed_items gcs_fs directory rest
      end
  end.

(** The remote calls of the batch loop: one [open] per name, in order. *)
Definition swc_opens (gcs_fs : option client) (directory : string)
    (names : list string) : list remote_op :=
  match gcs_fs with
  | Some _ => map (fun name => Open (directory +:+ "/" +:+ name)) names
  | None => []
  end.

(** What a remote fetch of [g] computes: the parsed object, or the error
    of the [open] or of the parse. *)
Definition fetch_result (parse : list byte -> option table) (c : client)
    (g : string) (columns : option (list string)) : result table :=
  match objects c !! g with
  | Some b => read_table parse b columns
  | None => Err (FileNotFoundError g)
  end.

(* ------------------------------------------------------------------ *)
(** ** [read_obj_from_gcs] *)

(** The mesh type and [trimesh.load_mesh] on the bytes of a [.obj] file
    (it may raise). *)
Variable mesh : Type.
Variable load_mesh : list byte -> result mesh.

(** [os.unlink(p)]. *)
Definition os_unlink (p : string) : M unit :=
  fun w => match fs w !! p with
           | Some (File _) => (Ok tt, set_fs (delete p (fs w)) w)
           | Some Dir => (Err (IsADirectoryError p), w)
           | None => (Err (FileNotFoundError p), w)
           end.

(** [try: m  finally: k]: [k] runs whatever [m] did; an exception of [k]
    replaces the outcome of [m]. *)
Definition try_finally {A} (m : M A) (k : M unit) : M A :=
  fun w => match m w with
           | (r, w1) => match k w1 with
                        | (Ok _, w2) => (r, w2)
                        | (Err e, w2) => (Err e, w2)
                        end
           end.

(** [with tempfile.NamedTemporaryFile(suffix='.obj', delete=False) as tmp:
    tmp.write(content); tmp_path = tmp.name]; [tmp_name] is the name the
    library picks. *)
Definition named_temporary_file (tmp_name : string) (content : list byte)
    : M string :=
  write_local tmp_name content;; st_ret tmp_name.

Definition read_obj_from_gcs (gcs_fs : option client) (obj_path : string)
    (tmp_name : string) : M mesh :=
  match gcs_fs with
  | None => raise (AttributeError "'NoneType' object has no attribute 'open'")
  | Some c =>
      let* content := remote_open c obj_path in
      let* tmp_path := named_temporary_file tmp_name content in
      try_finally
        (let* b := read_local tmp_path in of_result (load_mesh b))
        (os_unlink tmp_path)
  end.

(* ------------------------------------------------------------------ *)
(** ** [save_figure] and [save_plot] *)

(** A figure object: [hasattr(fig, 'write_html')] tells a plotly figure
    from a matplotlib one.  The writers are the libraries' own: plotly's
    [fig.write_html(filename)] and [fig.write_image(filename)] (the latter
    through kaleido), and matplotlib's [fig.savefig(filename, format=fmt)].
    Each may write the file or raise: an unknown format, a missing
    directory, a missing image engine. *)
Variable figure : Type.
Variable has_write_html : figure -> bool.
Variables (write_html write_image : figure -> string -> M unit).
Variable savefig : figure -> string -> string -> M unit.

Definition save_figure (fig : figure) (filename fmt : string) : M unit :=
  if has_write_html fig then
    if String.eqb fmt "html" then write_html fig filename
    else if String.eqb fmt "png" then write_image fig filename
    else raise (ValueError ("Unsupported format for plotly: " +:+ fmt))
  else savefig fig filename fmt.

(** [caller_img_dir] is [IMG_DIR] in the caller's globals, if bound (to a
    string). *)
Definition save_plot (fig : figure) (name : string) (img_dir : option string)
    (fmt : string) (caller_img_dir : option string) : M unit :=
  let img_dir := match img_dir with
                 | Some d => d
                 | None => match caller_img_dir with
                           | Some d => d
                           | None => "."
                           end
                 end in
  let filename := os_path_join img_dir (name +:+ "." +:+ fmt) in
  save_figure fig filename fmt.

(* ------------------------------------------------------------------ *)
(** ** The chunked download loop *)

Lemma take_drop_n {B} (n : N) (s : list B) : (take_n n s ++ drop_n n s)%list = s.
Proof.
  revert n. induction s as [|x s IH]; intros n; simpl; [reflexivity|].
  destruct (N.eqb_spec n 0); simpl; [reflexivity|]. now rewrite IH.
Qed.

Lemma take_n_nil {B} (n : N) (s : list B) :
  n <> 0%N -> take_n n s = [] -> s = [].
Proof.
  intros Hn. destruct s as [|x s]; simpl; [reflexivity|].
  destruct (N.eqb_spec n 0); [contradiction | discriminate].
Qed.

Lemma drop_n_length {B} (n : N) (s : list B) :
  length (drop_n n s) <= length s.
Proof.
  revert n. induction s as [|x s IH]; intros n; simpl; [lia|].
  destruct (n =? 0)%N; simpl; [lia|]. specialize (IH (n - 1)%N). lia.
Qed.

Lemma drop_n_length_lt {B} (n : N) (s : list B) :
  n <> 0%N -> s <> [] -> length (drop_n n s) < length s.
Proof.
  intros Hn Hs. destruct s as [|x s]; [contradiction|]. simpl.
  destruct (N.eqb_spec n 0); [contradiction|].
  pose proof (drop_n_length (n - 1) s). lia.
Qed.

(** Enough iterations read the whole stream. *)
Lemma read_loop_concat {B} (fuel : nat) (n : N) (s : list B) :
  n <> 0%N -> length s < fuel -> concat (read_loop fuel n s) = s.
Proof.
  revert s. induction fuel as [|fuel IH]; intros s Hn Hlen; [lia|].
  simpl. destruct (take_n n s) as [|x chunk] eqn:E.
  - symmetry. exact (take_n_nil n s Hn E).
  - cbn [concat]. rewrite <- E, IH; [apply take_drop_n | exact Hn |].
    assert (s <> []) by (intros ->; discriminate).
    pose proof (drop_n_length_lt n s Hn H). lia.
Qed.

Lemma download_content_id {B} (s : list B) : download_content s = s.
Proof.
  unfold download_content, read_chunks. apply read_loop_concat; [discriminate | lia].
Qed.

(* ------------------------------------------------------------------ *)
(** ** Remote calls *)

Definition file_size_of (r : option (option Z)) : option Z :=
  match r with
  | None => None
  | Some None => Some 0%Z
  | Some (Some n) => Some n
  end.

Lemma get_file_size_run (c : client) (g : string) (w : world) :
  get_file_size c g w = (Ok (file_size_of (info_resp c g)), log_op (Info g) w).
Proof. unfold get_file_size, st_bind, catch, remote_info. now destruct (info_resp c g) as [[]|]. Qed.

Lemma remote_open_objects (c1 c2 : client) (p : string) (w : world) :
  objects c1 = objects c2 -> remote_open c1 p w = remote_open c2 p w.
Proof. intros E. unfold remote_open. now rewrite E. Qed.

(** The progress branch and the fallback branch of the [with] block
    compute the same thing. *)
Lemma download_parse_fallback (parse : list byte -> option table) (c : client)
    (g : string) (file_size : option Z) (columns : option (list string)) (w : world) :
  download_parse parse c g file_size columns w = download_parse parse c g None columns w.
Proof.
  unfold download_parse, st_bind, truthy.
  destruct (remote_open c g w) as [[f|e] w1]; [|reflexivity].
  destruct file_size as [n|]; [|reflexivity].
  destruct (negb (n =? 0)%Z); [|reflexivity]. now rewrite download_content_id.
Qed.

Lemma download_parse_objects (parse : list byte -> option table) (c1 c2 : client)
    (g : string) (columns : option (list string)) (w : world) :
  objects c1 = objects c2 ->
  download_parse parse c1 g None columns w = download_parse parse c2 g None columns w.
Proof.
  intros E. unfold download_parse, st_bind. now rewrite (remote_open_objects c1 c2 g w E).
Qed.

(* ------------------------------------------------------------------ *)
(** ** The readers only depend on the objects of the client *)

Lemma read_parquet_gcs_objects_only (path : string) (c1 c2 : client)
    (columns : option (list string)) (cache_dir : string) (use_cache : bool)
    (w : world) :
  objects c1 = objects c2 ->
  read_parquet_gcs path (Some c1) columns cache_dir use_cache w
  = read_parquet_gcs path (Some c2) columns cache_dir use_cache w.
Proof.
  intros E. unfold read_parquet_gcs.
  destruct (PyStr.startswith "gs://" path); [|reflexivity].
  unfold st_bind, os_path_exists, st_ret.
  destruct use_cache; cbv beta iota;
    [ match goal with |- context [negb ?a && ?b] => destruct (negb a && b) end;
      [reflexivity|] | ];
    rewrite !get_file_size_run; cbv beta iota.
  all: rewrite (download_parse_fallback _ c1), (download_parse_fallback _ c2).
  all: rewrite (download_parse_objects _ c1 c2 _ _ _ E).
  all: destruct (download_parse _ c2 _ None _ _) as [[df|e] w2]; try reflexivity.
  destruct (makedirs cache_dir w2) as [[[]|e] w3]; [|reflexivity].
  destruct columns as [cs|]; [|reflexivity].
  now rewrite (remote_open_objects c1 c2 _ w3 E).
Qed.

Lemma read_feather_gcs_objects_only (path : string) (c1 c2 : client)
    (cache_dir : string) (use_cache : bool) (w : world) :
  objects c1 = objects c2 ->
  read_feather_gcs path (Some c1) cache_dir use_cache w
  = read_feather_gcs path (Some c2) cache_dir use_cache w.
Proof.
  intros E. unfold read_feather_gcs.
  destruct (PyStr.startswith "gs://" path); [|reflexivity].
  unfold st_bind, os_path_exists, st_ret.
  destruct use_cache; cbv beta iota;
    [ match goal with |- context [negb ?a && ?b] => destruct (negb a && b) end;
      [reflexivity|] | ];
    rewrite !get_file_size_run; cbv beta iota.
  all: rewrite (download_parse_fallback _ c1), (download_parse_fallback _ c2).
  all: now rewrite (download_parse_objects _ c1 c2 _ _ _ E).
Qed.








(** C8: on a remote fetch, a client whose size lookup raises gives the
    same result and the same final state as any client with the same
    objects, whatever its size lookup answers (so the failure never
    reaches the caller); without the cache, the object is still opened
    and parsed after the failed lookup. *)
Theorem read_gcs_size_lookup_failure (path : string) (c1 c2 : client)
    (Hobj : objects c1 = objects c2)
    (Hfail : info_resp c1 (PyStr.replace "gs://" "" path) = None)
    (Hgs : PyStr.startswith "gs://" path = true) :
  (forall columns cache_dir use_cache (w : world),
     read_parquet_gcs path (Some c1) columns cache_dir use_cache w
     = read_parquet_gcs path (Some c2) columns cache_dir use_cache w)
  /\ (forall cache_dir use_cache (w : world),
     read_feather_gcs path (Some c1) cache_dir use_cache w
     = read_feather_gcs path (Some c2) cache_dir use_cache w)
  /\ (forall columns cache_dir (w : world),
     let g := PyStr.replace "gs://" "" path in
     read_parquet_gcs path (Some c1) columns cache_dir false w
     = (match objects c1 !! g with
        | Some b => read_table parse_parquet b columns
        | None => Err (FileNotFoundError g)
        end, log_op (Open g) (log_op (Info g) w))).
Proof.
  split; [|split].
  - intros. now apply read_parquet_gcs_objects_only.
  - intros. now apply read_feather_gcs_objects_only.
  - intros columns cache_dir w g. unfold read_parquet_gcs. rewrite Hgs.
    unfold st_bind, st_ret. cbv beta iota zeta.
    rewrite get_file_size_run. cbv beta iota.
    rewrite Hfail. unfold download_parse, st_bind, remote_open, of_result.
    fold g. simpl.
    destruct (objects c1 !! g) as [b|]; [|reflexivity].
    now destruct (read_table parse_parquet b columns).
Qed.

Lemma batch_loop_run (gcs_fs : option client) (directory : string)
    (acc : list neuron) (names : list string) (w : world) :
  batch_loop gcs_fs directory acc names w
  = (Ok (acc ++ parsed_items gcs_fs directory names)%list,
     {| fs := fs w;
        remote_log := (remote_log w ++ swc_opens gcs_fs directory names)%list |}).
Proof.
  revert acc w. induction names as [|name rest IH]; intros acc w.
  - destruct w as [m l]. simpl. unfold st_ret, swc_opens.
    destruct gcs_fs; now rewrite !app_nil_r.
  - simpl. unfold st_bind, catch, read_swc_from_gcs, swc_item.
    destruct gcs_fs as [c|].
    + unfold remote_open, st_bind, st_ret, raise. simpl.
      destruct (objects c !! (directory +:+ "/" +:+ name)) as [b|];
        [destruct (parse_swc b) as [n|]|];
        rewrite IH; simpl; rewrite <- !app_assoc; reflexivity.
    + unfold raise. rewrite IH. reflexivity.
Qed.

Lemma parsed_items_length (gcs_fs : option client) (directory : string)
    (names : list string) :
  length (parsed_items gcs_fs directory names)
  + length (List.filter (item_failed gcs_fs directory)
              names)
  = length names.
Proof.
  induction names as [|name rest IH]; simpl; [reflexivity|].
  unfold item_failed at 1. destruct (swc_item gcs_fs directory name); simpl; lia.
Qed.

(** C9: the batch reader never raises: it returns, in order, the neurons
    of the names whose object exists and parses, skipping the others, and
    opens each name under the directory once, in order; the number of
    results is the number of names minus the number of failed items, so
    [N - 1] when exactly one item fails. *)
Theorem batch_read_swc_from_gcs_skips_failures (gcs_fs : option client)
    (directory : string) (filenames : list string) (show_progress : bool)
    (w : world) :
  batch_read_swc_from_gcs gcs_fs directory filenames show_progress w
  = (Ok (parsed_items gcs_fs directory filenames),
     {| fs := fs w;
        remote_log := (remote_log w ++ swc_opens gcs_fs directory filenames)%list |})
  /\ (length (List.filter (item_failed gcs_fs directory)
                filenames) = 1 ->
      length (parsed_items gcs_fs directory filenames) = length filenames - 1).
Proof.
  split.
  - apply batch_loop_run.
  - intros H. pose proof (parsed_items_length gcs_fs directory filenames). lia.
Qed.

(** C10: for every stream, the 1 MiB chunk loop followed by the join
    gives back the whole stream, so the progress branch and the fallback
    branch of the [with] block parse the same bytes and return the same
    result in the same state. *)
Theorem download_branches_agree :
  (forall (B : Type) (s : list B), concat (read_chunks chunk_size s) = s)
  /\ (forall (parse : list byte -> option table) (c : client) (g : string)
        (n : Z) (columns : option (list string)) (w : world),
        n <> 0%Z ->
        download_parse parse c g (Some n) columns w
        = download_parse parse c g None columns w).
Proof.
  split.
  - intros B s. apply download_content_id.
  - intros. apply download_parse_fallback.
Qed.

(* ------------------------------------------------------------------ *)
(** ** Further properties of the readers *)

Lemma download_parse_run (parse : list byte -> option table) (c : client)
    (g : string) (file_size : option Z) (columns : option (list string))
    (w : world) :
  download_parse parse c g file_size columns w
  = (fetch_result parse c g columns, log_op (Open g) w).
Proof.
  rewrite download_parse_fallback. unfold download_parse, st_bind, remote_open,
    fetch_result, of_result. simpl.
  destruct (objects c !! g); reflexivity.
Qed.

(** Without the cache, a remote read of either reader asks for the size,
    opens the object once and returns what the object parses to (or the
    error of the open or the parse); the local store is left as it was. *)
Theorem read_gcs_without_cache (path : string) (c : client)
    (Hgs : PyStr.startswith "gs://" path = true) :
  let g := PyStr.replace "gs://" "" path in
  (forall columns cache_dir (w : world),
     read_parquet_gcs path (Some c) columns cache_dir false w
     = (fetch_result parse_parquet c g columns, log_op (Open g) (log_op (Info g) w)))
  /\ (forall cache_dir (w : world),
     read_feather_gcs path (Some c) cache_dir false w
     = (fetch_result parse_feather c g None, log_op (Open g) (log_op (Info g) w))).
Proof.
  intros g. split; intros;
    [unfold read_parquet_gcs | unfold read_feather_gcs]; rewrite Hgs;
    unfold st_bind, st_ret; cbv beta iota zeta; fold g;
    rewrite get_file_size_run; cbv beta iota;
    rewrite download_parse_run; destruct (fetch_result _ c g _); reflexivity.
Qed.

(** On a cache miss with the cache on, a download that fails (missing
    object, unparsable bytes, unknown column) raises that error before
    any cache directory or file is created: only the size lookup and the
    [open] are recorded. *)
Theorem read_gcs_failed_download_writes_nothing (path : string) (c : client)
    (cache_dir : string) (w : world)
    (Hgs : PyStr.startswith "gs://" path = true)
    (Hmiss : fs w !! os_path_join cache_dir (cache_filename path) = None) :
  let g := PyStr.replace "gs://" "" path in
  (forall columns e,
     fetch_result parse_parquet c g columns = Err e ->
     read_parquet_gcs path (Some c) columns cache_dir true w
     = (Err e, log_op (Open g) (log_op (Info g) w)))
  /\ (forall e,
     fetch_result parse_feather c g None = Err e ->
     read_feather_gcs path (Some c) cache_dir true w
     = (Err e, log_op (Open g) (log_op (Info g) w))).
Proof.
  intros g. split; intros;
    [unfold read_parquet_gcs | unfold read_feather_gcs]; rewrite Hgs;
    cbv zeta; fold g;
    unfold st_bind, os_path_exists; rewrite Hmiss, andb_false_r; cbv beta iota;
    rewrite get_file_size_run; cbv beta iota;
    rewrite download_parse_run; now rewrite H.
Qed.



(** With the cache on and a miss, a successful download still raises
    when the cache directory is the empty name ([FileNotFoundError]) or
    the name of an existing regular file ([FileExistsError]); the table is
    lost, nothing is written, and the size lookup and [open] have already
    been made. *)
Theorem read_gcs_cache_dir_unusable (path : string) (c : client)
    (cache_dir : string) (w : world)
    (Hgs : PyStr.startswith "gs://" path = true)
    (Hmiss : fs w !! os_path_join cache_dir (cache_filename path) = None) :
  let g := PyStr.replace "gs://" "" path in
  let err := if String.eqb cache_dir "" then FileNotFoundError cache_dir
             else FileExistsError cache_dir in
  (cache_dir = "" \/ exists f, fs w !! cache_dir = Some (File f)) ->
  (forall columns df,
     fetch_result parse_parquet c g columns = Ok df ->
     read_parquet_gcs path (Some c) columns cache_dir true w
     = (Err err, log_op (Open g) (log_op (Info g) w)))
  /\ (forall df,
     fetch_result parse_feather c g None = Ok df ->
     read_feather_gcs path (Some c) cache_dir true w
     = (Err err, log_op (Open g) (log_op (Info g) w))).
Proof.
  intros g err Hbad.
  assert (Hmk : makedirs cache_dir (log_op (Open g) (log_op (Info g) w))
                = (Err err, log_op (Open g) (log_op (Info g) w))).
  { unfold makedirs, err. destruct (String.eqb_spec cache_dir "") as [->|Hne].
    - reflexivity.
    - destruct Hbad as [E|[f Hf]]; [contradiction|]. simpl. now rewrite Hf. }
  split; intros;
    [unfold read_parquet_gcs | unfold read_feather_gcs]; rewrite Hgs;
    cbv zeta; fold g;
    unfold st_bind, os_path_exists; rewrite Hmiss, andb_false_r; cbv beta iota;
    rewrite get_file_size_run; cbv beta iota;
    rewrite download_parse_run; rewrite H; cbv beta iota;
    rewrite Hmk; reflexivity.
Qed.

(** [read_obj_from_gcs] opens the object once and returns what
    [trimesh.load_mesh] makes of its bytes, or the error of the [open] or
    of the load; the temporary file it creates is removed in every case,
    so the local store ends as it began. *)
Theorem read_obj_from_gcs_removes_temp_file (c : client) (obj_path tmp_name : string)
    (w : world) (Hfresh : fs w !! tmp_name = None) :
  read_obj_from_gcs (Some c) obj_path tmp_name w
  = (match objects c !! obj_path with
     | Some b => load_mesh b
     | None => Err (FileNotFoundError obj_path)
     end, log_op (Open obj_path) w).
Proof.
  unfold read_obj_from_gcs, st_bind, remote_open. simpl.
  destruct (objects c !! obj_path) as [b|]; [|reflexivity].
  unfold named_temporary_file, write_local, st_bind, st_ret. simpl.
  rewrite Hfresh. simpl.
  unfold try_finally, read_local, of_result, os_unlink. simpl.
  rewrite lookup_insert_eq. simpl. rewrite lookup_insert_eq.
  unfold set_fs, log_op. simpl. rewrite delete_insert_id by exact Hfresh.
  reflexivity.
Qed.


(** [save_plot] saves to [os.path.join(img_dir, name + "." + fmt)].
    With no directory given, [IMG_DIR] of the caller's globals is used as
    if it had been given, and without it the file is ["./{name}.{fmt}"].
    For a name that does not start with ["/"], a directory [d] gives
    ["{name}.{fmt}"] when [d] is empty, ["{d}{name}.{fmt}"] when [d] ends
    in ["/"], and ["{d}/{name}.{fmt}"] otherwise; a name that starts with
    ["/"] ignores every directory. *)
Theorem save_plot_target (fig : figure) (name fmt : string) (w : world) :
  (String.prefix "/" name = false ->
   save_plot fig name None fmt None w
   = save_figure fig ("./" +:+ name +:+ "." +:+ fmt) fmt w)
  /\ (forall d caller_img_dir,
        save_plot fig name None fmt (Some d) w
        = save_plot fig name (Some d) fmt caller_img_dir w)
  /\ (forall caller_img_dir,
        String.prefix "/" name = false ->
        save_plot fig name (Some "") fmt caller_img_dir w
        = save_figure fig (name +:+ "." +:+ fmt) fmt w)
  /\ (forall d caller_img_dir,
        String.prefix "/" name = false -> d <> "" ->
        substring (String.length d - 1) 1 d = "/" ->
        save_plot fig name (Some d) fmt caller_img_dir w
        = save_figure fig (d +:+ name +:+ "." +:+ fmt) fmt w)
  /\ (forall d caller_img_dir,
        String.prefix "/" name = false -> d <> "" ->
        substring (String.length d - 1) 1 d <> "/" ->
        save_plot fig name (Some d) fmt caller_img_dir w
        = save_figure fig (d +:+ "/" +:+ name +:+ "." +:+ fmt) fmt w)
  /\ (forall img_dir caller_img_dir,
        String.prefix "/" name = true ->
        save_plot fig name img_dir fmt caller_img_dir w
        = save_figure fig (name +:+ "." +:+ fmt) fmt w).
Proof.
  assert (Hpre : String.prefix "/" (name +:+ "." +:+ fmt) = String.prefix "/" name).
  { destruct name as [|x name]; [reflexivity|].
    change (String x name +:+ "." +:+ fmt) with (String x (name +:+ "." +:+ fmt)).
    Transparent String.prefix. cbn -[ascii_dec].
    destruct (ascii_dec "/" x); [|reflexivity]. destruct name; reflexivity. }
  unfold save_plot, os_path_join. rewrite Hpre.
  split; [|split; [|split; [|split; [|split]]]].
  - intros H. rewrite H. reflexivity.
  - intros d cd. reflexivity.
  - intros cd H. rewrite H. reflexivity.
  - intros d cd H Hd Hs. rewrite H. destruct d as [|x d]; [contradiction|].
    rewrite Hs. reflexivity.
  - intros d cd H Hd Hs. rewrite H. destruct d as [|x d]; [contradiction|].
    destruct (String.eqb_spec (substring (String.length (String x d) - 1) 1 (String x d)) "/");
      [contradiction | reflexivity].
  - intros img cd H. now rewrite H.
Qed.

End Fetch.

Arguments File {byte} contents.
Arguments Dir {byte}.
Arguments fs {byte} _.
Arguments remote_log {byte} _.
Arguments objects {byte} _.
Arguments info_resp {byte} _ _.

(* ------------------------------------------------------------------ *)
(** ** The helpers of the tutorial test script ([src/python/test_03.py]) *)

Module Test03.

(** The [file_mappings] dict, in insertion order. *)
Definition file_mappings (dataset : string) : list (string * string) :=
  [("meta", dataset +:+ "_meta.feather");
   ("edgelist", dataset +:+ "_edgelist.feather");
   ("edgelist_simple", dataset +:+ "_simple_edgelist.feather");
   ("synapses", dataset +:+ "_synapses.parquet")].

Definition construct_path (data_root dataset file_type : string) : result string :=
  let dataset_name := Paths.dataset_name_of dataset in
  match Paths.dict_get file_type (file_mappings dataset) with
  | None => Err (ValueError ("Unknown file_type: " +:+ file_type))
  | Some filename => Ok (data_root +:+ "/" +:+ dataset_name +:+ "/" +:+ filename)
  end.

(** The script's own [read_feather_gcs]: no cache and no size lookup. *)
Definition read_feather_gcs {byte col : Type}
    (parse_feather : list byte -> option (table col))
    (is_url : string -> bool) (read_feather_url : string -> result (table col))
    (path : string) (gcs_fs : option (client byte)) : M byte (table col) :=
  if PyStr.startswith "gs://" path then
    match gcs_fs with
    | None => raise (ValueError "gcs_fs required for GCS paths")
    | Some c =>
        let gcs_path := PyStr.replace "gs://" "" path in
        let* f := remote_open byte c gcs_path in
        of_result (read_table byte col parse_feather f None)
    end
  else
    read_store byte (pd_read_feather byte col parse_feather is_url read_feather_url path).

End Test03.

Example construct_path_meta :
  Paths.construct_path "gs://bucket/data" "banc_746" "meta" None
  = Ok "gs://bucket/data/banc/banc_746_meta.feather".
Proof. reflexivity. Qed.

Example construct_path_skel :
  Paths.construct_path "r" "banc_746" "skeletons" None
  = Ok "r/banc/banc_banc_space_l2_swc".
Proof. reflexivity. Qed.

Example replace_ex :
  PyStr.replace "/" "_" (PyStr.replace "gs://" "" "gs://b/gs://k") = "b_k".
Proof. reflexivity. Qed.

Example replace_empty_ex : PyStr.replace "" "X" "abc" = "XaXbXcX".
Proof. reflexivity. Qed.


(* ------------------------------------------------------------------ *)
(** ** String lemmas *)

Lemma str_app_cons (c : ascii) (a b : string) :
  String c a +:+ b = String c (a +:+ b).
Proof. reflexivity. Qed.

Lemma str_app_nil_l (b : string) : "" +:+ b = b.
Proof. reflexivity. Qed.

Lemma str_app_nil_r (s : string) : s +:+ "" = s.
Proof. induction s as [|c s IH]; [reflexivity|]. now rewrite str_app_cons, IH. Qed.

Lemma str_app_assoc (a b c : string) : (a +:+ b) +:+ c = a +:+ (b +:+ c).
Proof.
  induction a as [|x a IH]; [reflexivity|].
  now rewrite !str_app_cons, IH.
Qed.

Lemma str_app_length (a b : string) :
  String.length (a +:+ b) = String.length a + String.length b.
Proof.
  induction a as [|x a IH]; [reflexivity|].
  rewrite str_app_cons. simpl. now rewrite IH.
Qed.

(** Two strings with a common value and equally long tails share the tail. *)
Lemma str_app_inv_tail (a b x y : string) :
  a +:+ x = b +:+ y -> String.length x = String.length y -> x = y.
Proof.
  revert b. induction a as [|c a IH]; intros b Heq Hlen; destruct b as [|c' b].
  - exact Heq.
  - rewrite str_app_nil_l, str_app_cons in Heq. subst x.
    simpl in Hlen. rewrite str_app_length in Hlen. lia.
  - rewrite str_app_nil_l, str_app_cons in Heq. subst y.
    simpl in Hlen. rewrite str_app_length in Hlen. lia.
  - rewrite !str_app_cons in Heq. injection Heq as _ Heq. exact (IH b Heq Hlen).
Qed.

Lemma prefix_app (s t : string) : String.prefix s (s +:+ t) = true.
Proof.
  Transparent String.prefix.
  induction s as [|c s IH]; [destruct t; reflexivity|].
  rewrite str_app_cons. simpl.
  destruct (ascii_dec c c) as [_|n]; [exact IH | contradiction].
Qed.

Lemma contains_app_l (sub p t : string) :
  PyStr.contains sub t = true -> PyStr.contains sub (p +:+ t) = true.
Proof.
  intros H. induction p as [|c p IH]; [exact H|].
  rewrite str_app_cons. simpl. rewrite IH. apply orb_true_r.
Qed.

Lemma prefix_refl (s : string) : String.prefix s s = true.
Proof.
  Transparent String.prefix.
  induction s as [|c s IH]; simpl; [reflexivity|].
  destruct (ascii_dec c c) as [_|n]; [exact IH | contradiction].
Qed.

Lemma contains_refl (s : string) : PyStr.contains s s = true.
Proof.
  destruct s as [|c s]; [reflexivity|].
  unfold PyStr.contains. now rewrite (prefix_refl (String c s)).
Qed.

Lemma contains_suffix (p s : string) : PyStr.contains s (p +:+ s) = true.
Proof. apply contains_app_l, contains_refl. Qed.

(** [dataset.split("_")[0]] is the text before the first underscore. *)
Lemma split_char_head (s : string) :
  exists ws, PyStr.split_char "_"%char s = Paths.family_spec s :: ws.
Proof.
  induction s as [|c s [ws IH]]; simpl.
  - now exists [].
  - rewrite IH. destruct (Ascii.eqb c "_"%char).
    + eexists; reflexivity.
    + eexists; reflexivity.
Qed.

Lemma dataset_name_of_family (s : string) :
  Paths.dataset_name_of s = Paths.family_spec s.
Proof.
  unfold Paths.dataset_name_of. destruct (split_char_head s) as [ws ->].
  reflexivity.
Qed.

Lemma dict_get_kind (k : Paths.file_kind) :
  Paths.dict_get (Paths.file_kind_name k) Paths.extensions
  = Some (match k with Paths.Synapses => ".parquet"
                     | Paths.Skeletons => "" | _ => ".feather" end).
Proof. destruct k; reflexivity. Qed.

(** ** Claims about [construct_path] *)

(** C3: for every root, dataset, recognized file kind and space suffix,
    [construct_path] returns the string [{root}/{family}/{filename}],
    with [family] the part of the dataset name before the first
    underscore and [filename] given by the spec's fixed file-kind table;
    being a function of its arguments, equal inputs give equal paths. *)
Theorem construct_path_layout (root dataset : string) (k : Paths.file_kind)
    (space_suffix : option string) :
  Paths.construct_path root dataset (Paths.file_kind_name k) space_suffix
  = Ok (Paths.spec_resolve root dataset k space_suffix).
Proof.
  unfold Paths.construct_path, Paths.spec_resolve.
  rewrite dict_get_kind, dataset_name_of_family.
  destruct k; simpl; try reflexivity.
  destruct space_suffix as [sp|];
    destruct (String.eqb (Paths.family_spec dataset) "banc"); reflexivity.
Qed.

(** C4 (counterexample): the dataset ["l2_1"] has family ["l2"], not
    ["banc"], yet its skeletons path contains ["_l2"]: the family name
    itself supplies it. *)
Lemma construct_path_skeletons_l2_other_family :
  Paths.family_spec "l2_1" <> "banc"
  /\ Paths.construct_path "r" "l2_1" "skeletons" None = Ok "r/l2/l2_l2_space_swc"
  /\ PyStr.contains "_l2" "r/l2/l2_l2_space_swc" = true.
Proof. split; [discriminate | split; reflexivity]. Qed.

(** C4 (amended): with the default space suffix, the skeletons path of
    ["banc_746"] is [{root}/banc/banc_banc_space_l2_swc], which contains
    ["_l2_swc"]; for a dataset whose family is not ["banc"] no ["_l2"]
    segment is inserted: its path is
    [{root}/{family}/{family}_{family}_space_swc]. *)
Theorem construct_path_skeletons_l2 (root dataset : string)
    (Hfam : Paths.family_spec dataset <> "banc") :
  Paths.construct_path root "banc_746" "skeletons" None
    = Ok (root +:+ "/banc/banc_banc_space_l2_swc")
  /\ PyStr.contains "_l2_swc" (root +:+ "/banc/banc_banc_space_l2_swc") = true
  /\ Paths.construct_path root dataset "skeletons" None
    = Ok (root +:+ "/" +:+ Paths.family_spec dataset +:+ "/"
          +:+ Paths.family_spec dataset +:+ "_" +:+ Paths.family_spec dataset
          +:+ "_space_swc").
Proof.
  split; [reflexivity | split].
  - change (root +:+ "/banc/banc_banc_space_l2_swc")
      with (root +:+ "/banc/banc_banc_space" +:+ "_l2_swc").
    rewrite <- str_app_assoc. apply contains_suffix.
  - change "skeletons" with (Paths.file_kind_name Paths.Skeletons).
    rewrite construct_path_layout.
    unfold Paths.spec_resolve, Paths.spec_filename.
    destruct (String.eqb_spec (Paths.family_spec dataset) "banc") as [E|_];
      [contradiction|].
    now rewrite str_app_assoc.
Qed.

(** C5: for every root, dataset and space suffix, the [edgelist_simple]
    path ends with [{dataset}_simple_edgelist.feather] ("simple" before
    "edgelist"), and it never ends with [{dataset}_edgelist_simple.feather]. *)
Theorem construct_path_simple_edgelist (root dataset : string)
    (space_suffix : option string) :
  Paths.construct_path root dataset "edgelist_simple" space_suffix
    = Ok (root +:+ "/" +:+ Paths.family_spec dataset +:+ "/"
          +:+ dataset +:+ "_simple_edgelist.feather")
  /\ forall pre : string,
     Paths.construct_path root dataset "edgelist_simple" space_suffix
       <> Ok (pre +:+ dataset +:+ "_edgelist_simple.feather").
Proof.
  assert (E : Paths.construct_path root dataset "edgelist_simple" space_suffix
    = Ok (root +:+ "/" +:+ Paths.family_spec dataset +:+ "/"
          +:+ dataset +:+ "_simple_edgelist.feather")).
  { change "edgelist_simple" with (Paths.file_kind_name Paths.EdgelistSimple).
    now rewrite construct_path_layout. }
  split; [exact E|]. intros pre H. rewrite E in H. injection H as H.
  rewrite <- !str_app_assoc in H.
  apply str_app_inv_tail in H; [discriminate | reflexivity].
Qed.

Lemma dict_get_unknown (file_type : string) :
  ~ In file_type Paths.valid_kinds ->
  Paths.dict_get file_type Paths.extensions = None.
Proof.
  intros H. unfold Paths.dict_get, Paths.extensions.
  destruct (String.eqb_spec file_type "meta") as [->|_];
    [exfalso; apply H; simpl; tauto|].
  destruct (String.eqb_spec file_type "edgelist") as [->|_];
    [exfalso; apply H; simpl; tauto|].
  destruct (String.eqb_spec file_type "edgelist_simple") as [->|_];
    [exfalso; apply H; simpl; tauto|].
  destruct (String.eqb_spec file_type "synapses") as [->|_];
    [exfalso; apply H; simpl; tauto|].
  destruct (String.eqb_spec file_type "skeletons") as [->|_];
    [exfalso; apply H; simpl; tauto|].
  reflexivity.
Qed.

(** C6: a [file_type] outside the five recognized kinds raises
    [ValueError] whose message lists all five kinds; each recognized kind
    returns a path and raises nothing. *)
Theorem construct_path_file_type (root dataset file_type : string)
    (space_suffix : option string) :
  (In file_type Paths.valid_kinds ->
   exists p, Paths.construct_path root dataset file_type space_suffix = Ok p)
  /\ (~ In file_type Paths.valid_kinds ->
      let msg := "Unknown file_type: " +:+ file_type +:+ ". Choose: "
                 +:+ "meta, edgelist, edgelist_simple, synapses, skeletons" in
      Paths.construct_path root dataset file_type space_suffix = Err (ValueError msg)
      /\ Forall (fun k => PyStr.contains k msg = true) Paths.valid_kinds).
Proof.
  split.
  - intros H. simpl in H.
    destruct H as [<-|[<-|[<-|[<-|[<-|[]]]]]]; eexists; reflexivity.
  - intros H msg. split.
    + unfold Paths.construct_path. rewrite (dict_get_unknown _ H). reflexivity.
    + unfold msg.
      repeat constructor; apply contains_app_l, contains_app_l; reflexivity.
Qed.

(* ------------------------------------------------------------------ *)
(** ** More string lemmas *)

Lemma contains_unfold (sub s : string) :
  PyStr.contains sub s
  = String.prefix sub s || match s with
                          | EmptyString => false
                          | String _ rest => PyStr.contains sub rest
                          end.
Proof. destruct s; reflexivity. Qed.

Lemma prefix_one (a c : ascii) (t : string) :
  String.prefix (String a "") (String c t) = if ascii_dec a c then true else false.
Proof.
  Transparent String.prefix.
  simpl. destruct (ascii_dec a c); [destruct t|]; reflexivity.
Qed.

Lemma substring_0_length (s : string) : substring 0 (String.length s) s = s.
Proof. induction s as [|c s IH]; simpl; [reflexivity | now rewrite IH]. Qed.

(** [s.replace("/", "_")] leaves no ["/"]. *)
Lemma replace_slash_fuel (fuel : nat) (s : string) :
  String.length s < fuel -> PyStr.contains "/" (PyStr.replace_fuel fuel "/" "_" s) = false.
Proof.
  revert s. induction fuel as [|fuel IH]; intros s H; [simpl in H; lia|].
  destruct s as [|c r]; [reflexivity|].
  cbn [PyStr.replace_fuel]. change "/" with (String "/" "").
  rewrite prefix_one. simpl in H.
  destruct (ascii_dec "/" c) as [<-|Hc]; cbv iota.
  - replace (substring (String.length (String "/" "")) (String.length (String "/" r)
               - String.length (String "/" "")) (String "/" r)) with r
      by (simpl; rewrite Nat.sub_0_r; symmetry; apply substring_0_length).
    rewrite str_app_cons, str_app_nil_l, contains_unfold, prefix_one.
    destruct (ascii_dec "/" "_") as [E|_]; [discriminate E|]. apply IH. lia.
  - rewrite contains_unfold, prefix_one.
    destruct (ascii_dec "/" c) as [E|_]; [contradiction|]. apply IH. lia.
Qed.

Lemma contains_false_prefix (sub s : string) :
  PyStr.contains sub s = false -> String.prefix sub s = false.
Proof. rewrite contains_unfold. now destruct (String.prefix sub s). Qed.

Lemma prefix_spec (p s : string) : String.prefix p s = true -> exists r, s = p +:+ r.
Proof.
  Transparent String.prefix.
  revert s. induction p as [|a p IH]; intros s H; [now exists s|].
  destruct s as [|c s]; [discriminate H|]. simpl in H.
  destruct (ascii_dec a c) as [<-|_]; [|discriminate H].
  destruct (IH s H) as [r ->]. exists r. reflexivity.
Qed.

Lemma contains_spec (sub s : string) :
  PyStr.contains sub s = true -> exists x r, s = x +:+ sub +:+ r.
Proof.
  induction s as [|c s IH]; rewrite contains_unfold; intros H.
  - rewrite orb_false_r in H. destruct sub; [|discriminate H].
    now exists "", "".
  - apply orb_true_iff in H as [H|H].
    + destruct (prefix_spec _ _ H) as [r E]. exists "", r. exact E.
    + destruct (IH H) as [x [r ->]]. exists (String c x), r. reflexivity.
Qed.

Lemma contains_of_prefix (sub s : string) :
  String.prefix sub s = true -> PyStr.contains sub s = true.
Proof. intros H. rewrite contains_unfold, H. reflexivity. Qed.

Lemma contains_intro (x sub r : string) : PyStr.contains sub (x +:+ sub +:+ r) = true.
Proof. apply contains_app_l, contains_of_prefix, prefix_app. Qed.

(** A string containing [a ++ b] contains [a] and [b]. *)
Lemma contains_app_inv (a b s : string) :
  PyStr.contains (a +:+ b) s = true ->
  PyStr.contains a s = true /\ PyStr.contains b s = true.
Proof.
  intros H. destruct (contains_spec _ _ H) as [x [r ->]]. split.
  - rewrite str_app_assoc. apply contains_intro.
  - rewrite (str_app_assoc a b r), <- (str_app_assoc x a (b +:+ r)).
    apply contains_intro.
Qed.

(** Every character of [s] satisfies [P]. *)
Fixpoint all_chars (P : ascii -> bool) (s : string) : bool :=
  match s with
  | EmptyString => true
  | String c rest => P c && all_chars P rest
  end.

Lemma contains_absent_char (P : ascii -> bool) (a : ascii) (sub s : string) :
  all_chars P s = true -> P a = false -> PyStr.contains (String a sub) s = false.
Proof.
  intros Hs Ha. induction s as [|c s IH]; [reflexivity|].
  simpl in Hs. apply andb_true_iff in Hs as [Hc Hs].
  rewrite contains_unfold, (IH Hs), orb_false_r.
  Transparent String.prefix. simpl.
  destruct (ascii_dec a c) as [<-|_]; [congruence | reflexivity].
Qed.

(** The cache file name has no ["/"], so the cache file is always a
    file directly inside the cache directory: [{cache_dir}/{name}] for a
    directory without a trailing slash, [{cache_dir}{name}] with one,
    and the bare name for the empty directory (the working directory). *)
Theorem cache_path_in_cache_dir (path cache_dir : string) :
  PyStr.contains "/" (cache_filename path) = false
  /\ os_path_join "" (cache_filename path) = cache_filename path
  /\ (cache_dir <> "" ->
      substring (String.length cache_dir - 1) 1 cache_dir <> "/" ->
      os_path_join cache_dir (cache_filename path)
      = cache_dir +:+ "/" +:+ cache_filename path)
  /\ (cache_dir <> "" ->
      substring (String.length cache_dir - 1) 1 cache_dir = "/" ->
      os_path_join cache_dir (cache_filename path) = cache_dir +:+ cache_filename path).
Proof.
  assert (Hno : PyStr.contains "/" (cache_filename path) = false).
  { unfold cache_filename, PyStr.replace. apply replace_slash_fuel. lia. }
  pose proof (contains_false_prefix _ _ Hno) as Hp.
  unfold os_path_join. rewrite Hp.
  split; [exact Hno | split; [reflexivity|]].
  split; intros Hd Hs; destruct cache_dir as [|x d]; try contradiction;
    destruct (String.eqb_spec (substring (String.length (String x d) - 1) 1 (String x d)) "/");
    congruence.
Qed.

(* ------------------------------------------------------------------ *)
(** ** Compartment labels *)

Definition digit_or_minus (c : ascii) : bool :=
  existsb (Ascii.eqb c) ["0"; "1"; "2"; "3"; "4"; "5"; "6"; "7"; "8"; "9"; "-"]%char.

Lemma string_of_uint_digits (d : Decimal.uint) :
  all_chars digit_or_minus (NilEmpty.string_of_uint d) = true.
Proof. induction d; simpl; rewrite ?IHd; reflexivity. Qed.

Lemma py_str_int_digits (z : Z) : all_chars digit_or_minus (py_str (LInt z)) = true.
Proof.
  unfold py_str, NilZero.string_of_int, NilZero.string_of_uint.
  destruct (Z.to_int z) as [d|d]; [|simpl];
    destruct d; try reflexivity; apply string_of_uint_digits.
Qed.

Lemma lower_char_digit (c : ascii) : digit_or_minus c = true -> PyStr.lower_char c = c.
Proof.
  destruct c as [[] [] [] [] [] [] [] []]; intros H;
    try discriminate H; reflexivity.
Qed.

Lemma lower_digits (s : string) :
  all_chars digit_or_minus s = true -> PyStr.lower s = s.
Proof.
  induction s as [|c s IH]; simpl; [reflexivity|].
  intros H. apply andb_true_iff in H as [Hc Hs].
  now rewrite lower_char_digit, IH.
Qed.

(** The order of the tests of [split_neurons_by_compartment]: a label
    containing ["primary_dendrite"] always goes to the linkers (never to
    the dendrites); a label containing ["neurite"] but neither
    ["dendrite"] nor ["linker"] goes to the neurites, even when it also
    contains ["axon"]; and an integer label, as in numeric SWC node
    types, matches no test and is dropped. *)
Theorem classify_label_rules :
  (forall s, PyStr.contains "primary_dendrite" s = true -> classify s = Some Linker)
  /\ (forall s, PyStr.contains "neurite" s = true ->
              PyStr.contains "dendrite" s = false ->
              PyStr.contains "linker" s = false -> classify s = Some Neurite)
  /\ (forall z, classify (PyStr.lower (py_str (LInt z))) = None).
Proof.
  split; [|split].
  - intros s H.
    destruct (contains_app_inv "primary_" "dendrite" s H) as [_ Hd].
    destruct (contains_app_inv "primary" "_dendrite" s H) as [Hp _].
    unfold classify. rewrite Hd, Hp, H. now destruct (PyStr.contains "axon" s).
  - intros s Hn Hd Hl.
    assert (Hpd : PyStr.contains "primary_dendrite" s = false).
    { destruct (PyStr.contains "primary_dendrite" s) eqn:E; [|reflexivity].
      destruct (contains_app_inv "primary_" "dendrite" s E) as [_ E'].
      congruence. }
    unfold classify. rewrite Hn, Hd, Hl, Hpd. now destruct (PyStr.contains "axon" s).
  - intros z. rewrite lower_digits by apply py_str_int_digits.
    pose proof (py_str_int_digits z) as Hz.
    unfold classify.
    rewrite !(contains_absent_char digit_or_minus _ _ _ Hz) by reflexivity.
    reflexivity.
Qed.

Section NeuronProps.

Variable subset_neuron : tree_neuron -> list Z -> tree_neuron.
Variable volume : Type.
Variable fig3d : Type.
Variable navis_plot3d : plot3d_call volume -> option fig3d.

(** The label column [split_neurons_by_compartment] picks, if any. *)
Definition label_col_of (n : tree_neuron) : option string :=
  if has_column n "Label" then Some "Label"
  else if has_column n "label" then Some "label"
  else if has_column n "compartment" then Some "compartment"
  else None.

Definition part (k : compartment) (p : parts) : list tree_neuron :=
  match k with
  | Axon => axons p
  | Dendrite => dendrites p
  | Linker => linkers p
  | Neurite => neurites p
  end.

Definition is_part (k : compartment) (o : option compartment) : bool :=
  match k, o with
  | Axon, Some Axon | Dendrite, Some Dendrite
  | Linker, Some Linker | Neurite, Some Neurite => true
  | _, _ => false
  end.

Definition classified_as (k : compartment) (l : label) : bool :=
  negb (isna l) && is_part k (classify (PyStr.lower (py_str l))).

(** The subsets one neuron contributes to the list of [k]. *)
Definition part_of_neuron (k : compartment) (n : tree_neuron) : list tree_neuron :=
  match label_col_of n with
  | None => []
  | Some col => map (subset_for subset_neuron n col)
                  (List.filter (classified_as k) (unique (column n col)))
  end.

Lemma part_add (k : compartment) (p : parts) (o : option compartment) (s : tree_neuron) :
  part k (add_part p o s) = (part k p ++ (if is_part k o then [s] else []))%list.
Proof. destruct k, o as [[]|]; simpl; rewrite ?app_nil_r; reflexivity. Qed.

Lemma split_labels_part (k : compartment) (n : tree_neuron) (col : string)
    (ls : list label) (p : parts) :
  part k (split_labels subset_neuron n col ls p)
  = (part k p ++ map (subset_for subset_neuron n col)
                   (List.filter (classified_as k) ls))%list.
Proof.
  revert p. induction ls as [|l ls IH]; intros p; simpl; [now rewrite app_nil_r|].
  unfold classified_as at 1.
  destruct (isna l); simpl; rewrite IH; [reflexivity|].
  rewrite part_add, <- app_assoc.
  destruct (is_part k _); reflexivity.
Qed.

Lemma split_loop_part (k : compartment) (ns : list tree_neuron) (p : parts) :
  part k (split_loop subset_neuron ns p)
  = (part k p ++ flat_map (part_of_neuron k) ns)%list.
Proof.
  revert p. induction ns as [|n ns IH]; intros p; simpl; [now rewrite app_nil_r|].
  rewrite IH. unfold part_of_neuron, label_col_of.
  destruct (has_column n "Label"), (has_column n "label"), (has_column n "compartment");
    simpl; rewrite ?split_labels_part, <- ?app_assoc; reflexivity.
Qed.

(** [split_neurons_by_compartment] returns, for each compartment, the
    subsets of the neurons in order, and within a neuron in the order of
    first appearance of its labels, taken from the column [Label], else
    [label], else [compartment]: one subset per distinct non-missing label
    classified into that compartment; a neuron without such a column
    contributes nothing. *)
Theorem split_neurons_by_compartment_parts (neurons : list tree_neuron)
    (k : compartment) :
  part k (split_neurons_by_compartment subset_neuron neurons)
  = flat_map (part_of_neuron k) neurons.
Proof.
  unfold split_neurons_by_compartment. rewrite split_loop_part.
  destruct k; reflexivity.
Qed.

Lemma extend_part_eq (acc : list (volume + tree_neuron) * list string)
    (xs : list tree_neuron) (color : string) :
  extend_part volume acc xs color
  = ((fst acc ++ map inr xs)%list, (snd acc ++ repeat color (length xs))%list).
Proof.
  unfold extend_part. destruct xs as [|x xs]; simpl; [|reflexivity].
  destruct acc as [o c]. simpl. now rewrite !app_nil_r.
Qed.

(** [plot3d_split] returns [None] without calling [navis.plot3d] when
    there are neither volumes nor classified subsets; otherwise it returns
    whatever [navis.plot3d] returns for a call that plots the volumes
    first, then the dendrite, linker, axon and neurite subsets, with one
    color per subset (cyan, green, orange, purple) and none for the
    volumes, so the color list is shorter than the object list by the
    number of volumes; the height passed on is 800 whatever the [height]
    argument, the width is [width]. *)
Theorem plot3d_split_call (neurons : list tree_neuron) (volumes : volumes_arg volume)
    (backend : string) (width height : Z) (title : option string) :
  let p := split_neurons_by_compartment subset_neuron neurons in
  let subsets := (dendrites p ++ linkers p ++ axons p ++ neurites p)%list in
  let colors := (repeat "cyan" (length (dendrites p)) ++ repeat "green" (length (linkers p))
                 ++ repeat "orange" (length (axons p))
                 ++ repeat "purple" (length (neurites p)))%list in
  let vol_objs := match volumes with
                  | NoVolumes => []
                  | OneVolume v => [inl v]
                  | VolumeList vs => map inl vs
                  end in
  (vol_objs = [] /\ subsets = [] ->
   plot3d_split subset_neuron volume fig3d navis_plot3d neurons volumes backend
     width height title = None)
  /\ (vol_objs <> [] \/ subsets <> [] ->
      exists call,
        plot3d_split subset_neuron volume fig3d navis_plot3d neurons volumes backend
          width height title = navis_plot3d call
        /\ call_objects call = (vol_objs ++ map inr subsets)%list
        /\ call_color call = match colors with [] => None | _ => Some colors end
        /\ length (call_objects call) = length vol_objs + length colors
        /\ call_height call = 800%Z
        /\ call_width call = width).
Proof.
  intros p subsets colors vol_objs.
  unfold plot3d_split. fold p. fold vol_objs.
  rewrite !extend_part_eq. simpl fst. simpl snd.
  assert (Eo : ((((vol_objs ++ map inr (dendrites p)) ++ map inr (linkers p))
                 ++ map inr (axons p)) ++ map inr (neurites p))%list
               = (vol_objs ++ map inr subsets)%list).
  { unfold subsets. now rewrite !map_app, !app_assoc. }
  assert (Ec : ((((repeat "cyan" (length (dendrites p)))
                 ++ repeat "green" (length (linkers p)))
                 ++ repeat "orange" (length (axons p)))
                 ++ repeat "purple" (length (neurites p)))%list = colors).
  { unfold colors. now rewrite !app_assoc. }
  rewrite Eo, Ec.
  assert (Elen : length colors = length subsets).
  { unfold colors, subsets. rewrite !length_app, !repeat_length. reflexivity. }
  split.
  - intros [-> ->]. reflexivity.
  - intros Hne.
    destruct (Nat.ltb_spec 0 (length (vol_objs ++ map inr subsets))) as [H|H].
    + eexists. split; [reflexivity|]. simpl.
      split; [reflexivity|]. split; [reflexivity|].
      split; [|split; reflexivity].
      rewrite length_app, length_map. lia.
    + exfalso. rewrite length_app, length_map in H.
      destruct Hne as [Hne|Hne]; apply Hne, length_zero_iff_nil; lia.
Qed.

End NeuronProps.

(* ------------------------------------------------------------------ *)
(** ** The test script's helpers against those of [utils.py] *)

(** On the four kinds it knows, the test script's [construct_path] gives
    the same path as the one of [utils.py] (whatever the space suffix);
    any other kind, ["skeletons"] included, raises [ValueError] with the
    message ["Unknown file_type: {file_type}"], where the [utils.py]
    version resolves ["skeletons"]. *)
Theorem test03_construct_path_agrees (root dataset : string) (space_suffix : option string) :
  (forall k, k <> Paths.Skeletons ->
     Test03.construct_path root dataset (Paths.file_kind_name k)
     = Paths.construct_path root dataset (Paths.file_kind_name k) space_suffix)
  /\ (forall file_type,
        ~ In file_type ["meta"; "edgelist"; "edgelist_simple"; "synapses"] ->
        Test03.construct_path root dataset file_type
        = Err (ValueError ("Unknown file_type: " +:+ file_type)))
  /\ (exists p, Paths.construct_path root dataset "skeletons" space_suffix = Ok p).
Proof.
  split; [|split].
  - intros k Hk. destruct k; [reflexivity..|contradiction].
  - intros ft H. unfold Test03.construct_path, Test03.file_mappings, Paths.dict_get.
    destruct (String.eqb_spec ft "meta") as [->|_]; [exfalso; apply H; simpl; tauto|].
    destruct (String.eqb_spec ft "edgelist") as [->|_]; [exfalso; apply H; simpl; tauto|].
    destruct (String.eqb_spec ft "edgelist_simple") as [->|_];
      [exfalso; apply H; simpl; tauto|].
    destruct (String.eqb_spec ft "synapses") as [->|_]; [exfalso; apply H; simpl; tauto|].
    reflexivity.
  - eexists. reflexivity.
Qed.

(** The test script's [read_feather_gcs] agrees with the one of
    [utils.py] with the cache off: the same outcome for a local path or a
    missing client (for every cache setting), and for a remote path the
    same result, the script's version skipping only the size lookup. *)
Theorem test03_read_feather_gcs_agrees {byte col : Type}
    (parse_feather : list byte -> option (table col))
    (ser_feather : table col -> list byte) (is_url : string -> bool)
    (read_feather_url : string -> result (table col)) (path : string) :
  (forall gcs_fs cache_dir use_cache (w : world byte),
     (PyStr.startswith "gs://" path = false \/ gcs_fs = None) ->
     Test03.read_feather_gcs parse_feather is_url read_feather_url path gcs_fs w
     = read_feather_gcs byte col parse_feather ser_feather is_url read_feather_url path gcs_fs cache_dir use_cache w)
  /\ (PyStr.startswith "gs://" path = true ->
      forall (c : client byte) cache_dir (w : world byte),
      let g := PyStr.replace "gs://" "" path in
      Test03.read_feather_gcs parse_feather is_url read_feather_url path (Some c) w
      = (fetch_result byte col parse_feather c g None, log_op byte (Open g) w)
      /\ fst (read_feather_gcs byte col parse_feather ser_feather is_url read_feather_url path (Some c) cache_dir false w)
         = fst (Test03.read_feather_gcs parse_feather is_url read_feather_url path (Some c) w)).
Proof.
  split.
  - intros gcs_fs cache_dir use_cache w H.
    unfold Test03.read_feather_gcs, read_feather_gcs.
    destruct (PyStr.startswith "gs://" path) eqn:Hgs; [|reflexivity].
    destruct H as [H| ->]; [discriminate H | reflexivity].
  - intros Hgs c cache_dir w g.
    assert (Ht : Test03.read_feather_gcs parse_feather is_url read_feather_url path (Some c) w
                 = (fetch_result byte col parse_feather c g None, log_op byte (Open g) w)).
    { unfold Test03.read_feather_gcs. rewrite Hgs. fold g.
      unfold st_bind, remote_open, fetch_result, of_result. simpl.
      destruct (objects c !! g); reflexivity. }
    split; [exact Ht|]. rewrite Ht.
    unfold read_feather_gcs. rewrite Hgs. unfold st_bind, st_ret. cbv beta iota zeta.
    fold g. rewrite get_file_size_run. cbv beta iota.
    rewrite download_parse_run. destruct (fetch_result _ _ _ c g None); reflexivity.
Qed.

(* ------------------------------------------------------------------ *)
(** ** Evaluations on concrete inputs *)

(** C1: the path ["gs://b/gs://k"] names the object ["b/gs://k"]; the
    spec's cache key is ["b_gs:__k"], and a cache file exists under it.
    The code's [path.replace("gs://", "")] removes the inner ["gs://"]
    too: it looks for [.cache/b_k], misses, asks the client about the
    object ["b/k"] and opens it, which does not exist. *)
Lemma read_gcs_cache_key_inner_scheme :
  let path := "gs://b/gs://k" in
  let cached := [("x", [1%Z])] in
  let w := {| fs := {[ ".cache/b_gs:__k" := File cached ]};
              remote_log := [] |} in
  let c := {| objects := {[ "b/gs://k" := cached ]};
              info_resp := fun _ => Some (Some 1%Z) |} in
  spec_cache_key path = "b_gs:__k"
  /\ cache_filename path = "b_k"
  /\ read_parquet_gcs Toy.byte Toy.col Toy.parse Toy.ser Toy.is_url
    Toy.read_parquet_url Toy.read_parquet_dataset path (Some c) None
       ".cache" true w
     = (Err (FileNotFoundError "b/k"),
        {| fs := fs w; remote_log := [Info "b/k"; Open "b/k"] |})
  /\ read_feather_gcs Toy.byte Toy.col Toy.parse Toy.ser Toy.is_url
    Toy.read_feather_url path (Some c)
       ".cache" true w
     = (Err (FileNotFoundError "b/k"),
        {| fs := fs w; remote_log := [Info "b/k"; Open "b/k"] |}).
Proof. vm_compute. repeat split; reflexivity. Qed.

(** C4: the amended statement at the dataset ["otherfam_1"]. *)
Lemma construct_path_skeletons_l2_witness :
  Paths.family_spec "otherfam_1" <> "banc"
  /\ Paths.construct_path "r" "otherfam_1" "skeletons" None
     = Ok ("r" +:+ "/" +:+ Paths.family_spec "otherfam_1" +:+ "/"
           +:+ Paths.family_spec "otherfam_1" +:+ "_"
           +:+ Paths.family_spec "otherfam_1" +:+ "_space_swc").
Proof.
  split; [discriminate|].
  exact (proj2 (proj2 (construct_path_skeletons_l2 "r" "otherfam_1"
                         ltac:(discriminate)))).
Defined.



(** C8: a client whose size lookup raises and one that reports a size. *)
Lemma read_gcs_size_lookup_failure_witness :
  let path := "gs://b/m.parquet" in
  let objs := {[ "b/m.parquet" := [("x", [1%Z])] ]} in
  let c1 := {| objects := objs; info_resp := fun _ => None |} in
  let c2 := {| objects := objs; info_resp := fun _ => Some (Some 7%Z) |} in
  let w := {| fs := ∅; remote_log := [] |} in
  read_parquet_gcs Toy.byte Toy.col Toy.parse Toy.ser Toy.is_url
    Toy.read_parquet_url Toy.read_parquet_dataset path (Some c1) None
    ".cache" true w
  = read_parquet_gcs Toy.byte Toy.col Toy.parse Toy.ser Toy.is_url
    Toy.read_parquet_url Toy.read_parquet_dataset path (Some c2) None
      ".cache" true w.
Proof.
  intros path objs c1 c2 w.
  exact (proj1 (read_gcs_size_lookup_failure Toy.byte Toy.col Toy.parse Toy.parse
                  Toy.ser Toy.ser Toy.is_url Toy.read_feather_url
                  Toy.read_parquet_url Toy.read_parquet_dataset path c1 c2 eq_refl eq_refl eq_refl)
           None ".cache" true w).
Defined.

(** A remote read without the cache, on an object of one column. *)
Lemma read_gcs_without_cache_witness :
  let c := {| objects := {[ "b/m.feather" := [("x", [1%Z])] ]};
              info_resp := fun _ => Some (Some 1%Z) |} in
  let w := {| fs := ∅; remote_log := [] |} in
  PyStr.startswith "gs://" "gs://b/m.feather" = true
  /\ read_feather_gcs Toy.byte Toy.col Toy.parse Toy.ser Toy.is_url
    Toy.read_feather_url "gs://b/m.feather" (Some c)
       ".cache" false w
     = (Ok [("x", [1%Z])],
        {| fs := ∅; remote_log := [Info "b/m.feather"; Open "b/m.feather"] |}).
Proof.
  intros c w. split; [reflexivity|].
  exact (proj2 (read_gcs_without_cache _ _ Toy.parse Toy.parse Toy.ser Toy.ser Toy.is_url Toy.read_feather_url
                  Toy.read_parquet_url Toy.read_parquet_dataset
                  "gs://b/m.feather" c eq_refl) ".cache" w).
Defined.

(** A cache miss on an object the store does not hold. *)
Lemma read_gcs_failed_download_writes_nothing_witness :
  let c := {| objects := ∅; info_resp := fun _ => None |} in
  let w := {| fs := ∅; remote_log := [] |} in
  read_parquet_gcs Toy.byte Toy.col Toy.parse Toy.ser Toy.is_url
    Toy.read_parquet_url Toy.read_parquet_dataset "gs://b/m.parquet" (Some c)
    None ".cache" true w
  = (Err (FileNotFoundError "b/m.parquet"),
     {| fs := ∅; remote_log := [Info "b/m.parquet"; Open "b/m.parquet"] |}).
Proof.
  intros c w.
  exact (proj1 (read_gcs_failed_download_writes_nothing _ _ Toy.parse Toy.parse
                  Toy.ser Toy.ser Toy.is_url Toy.read_feather_url
                  Toy.read_parquet_url Toy.read_parquet_dataset "gs://b/m.parquet" c ".cache" w eq_refl eq_refl)
           None _ eq_refl).
Defined.



(** The cache directory name is taken by a regular file. *)
Lemma read_gcs_cache_dir_unusable_witness :
  let c := {| objects := {[ "b/m.feather" := [("x", [1%Z])] ]};
              info_resp := fun _ => Some (Some 1%Z) |} in
  let w := {| fs := {[ ".cache" := File [] ]}; remote_log := [] |} in
  read_feather_gcs Toy.byte Toy.col Toy.parse Toy.ser Toy.is_url
    Toy.read_feather_url "gs://b/m.feather" (Some c)
    ".cache" true w
  = (Err (FileExistsError ".cache"),
     {| fs := fs w; remote_log := [Info "b/m.feather"; Open "b/m.feather"] |}).
Proof.
  intros c w.
  exact (proj2 (read_gcs_cache_dir_unusable _ _ Toy.parse Toy.parse Toy.ser Toy.ser Toy.is_url Toy.read_feather_url
                  Toy.read_parquet_url Toy.read_parquet_dataset
                  "gs://b/m.feather" c ".cache" w eq_refl eq_refl
                  (or_intror (ex_intro _ [] eq_refl)))
           [("x", [1%Z])] eq_refl).
Defined.

(** A mesh object read through the temporary file ["/tmp/tmp1.obj"]. *)
Lemma read_obj_from_gcs_removes_temp_file_witness :
  let c := {| objects := {[ "m/a.obj" := [("v", [0%Z; 1%Z])] ]};
              info_resp := fun _ => None |} in
  let w := {| fs := {[ "data.csv" := File [] ]}; remote_log := [] |} in
  read_obj_from_gcs Toy.byte nat (fun b => Ok (length b)) (Some c) "m/a.obj"
    "/tmp/tmp1.obj" w
  = (Ok 1, {| fs := fs w; remote_log := [Open "m/a.obj"] |}).
Proof.
  intros c w.
  exact (read_obj_from_gcs_removes_temp_file Toy.byte nat (fun b => Ok (length b))
           c "m/a.obj" "/tmp/tmp1.obj" w eq_refl).
Defined.
